(** * sqlitepp: the RAII wrappers of SQLite.hpp

    A shallow embedding of [Exception], [Connection], [Reader] and
    [Statement] from SQLite.hpp.  Every member function is a computation in a
    small state-and-exception monad: the state is the receiver object ([this])
    together with the world outside the program, that is, the state of the
    native engine and the log of the ABI entry points called so far.  The
    native engine itself is a parameter ([sqlite3_abi]). *)

From Stdlib Require Import ZArith List String Bool Lia.
Import ListNotations.
Open Scope Z_scope.

Set Implicit Arguments.

(** ** Native types and constants *)

(** [sqlite3 *] and [sqlite3_stmt *]: pointer values. *)
Definition sqlite3_ptr := Z.
Definition sqlite3_stmt_ptr := Z.

(** [wchar_t const *] text: the sequence of wide-character units. *)
Definition wstring := list Z.

(** Result codes of sqlite3.h. *)
Definition SQLITE_OK : Z := 0.
Definition SQLITE_ROW : Z := 100.
Definition SQLITE_DONE : Z := 101.

(** The data models the header is compiled under: the width of [size_t] and
    the size of [wchar_t]. *)
Inductive Platform := LP64 | LLP64 | ILP32.

Definition size_t_bits (p : Platform) : Z :=
  match p with LP64 => 64 | LLP64 => 64 | ILP32 => 32 end.

Definition sizeof_wchar_t (p : Platform) : Z :=
  match p with LP64 => 4 | LLP64 => 2 | ILP32 => 4 end.

Definition INT_MAX : Z := 2147483647.

(** Integral conversions: [int] to [size_t] and back. *)
Definition to_size_t (p : Platform) (x : Z) : Z := x mod 2 ^ size_t_bits p.
Definition to_int (x : Z) : Z := (x + 2 ^ 31) mod 2 ^ 32 - 2 ^ 31.

(** The bytes of one [wchar_t] in memory, least significant first, and of a
    wide string with its terminating null. *)
Definition wchar_bytes (p : Platform) (unit : Z) : list Z :=
  map (fun i => (unit / 256 ^ Z.of_nat i) mod 256)
      (seq 0 (Z.to_nat (sizeof_wchar_t p))).

Definition wide_memory (p : Platform) (text : list Z) : list Z :=
  flat_map (wchar_bytes p) (text ++ [0]).

(** What an entry point of sqlite3.h that takes UTF-16 text through a
    [const void *] reads from such bytes: 16-bit units, up to the first null
    unit. *)
Fixpoint utf16_units (bytes : list Z) : list Z :=
  match bytes with
  | low :: high :: rest =>
      if low + 256 * high =? 0 then [] else low + 256 * high :: utf16_units rest
  | _ => []
  end.

(** The text the engine sees when it is handed a [wchar_t const *]. *)
Definition utf16_seen (p : Platform) (text : list Z) : list Z :=
  utf16_units (wide_memory p text).

(** The two ways the header is compiled: with or without [NDEBUG]. *)
Inductive Build := NDEBUG_defined | NDEBUG_undefined.

(** ** The native engine *)

(** Every ABI entry point the header calls, as a function of the engine's
    state.  An out-parameter ([sqlite3 **], [sqlite3_stmt **]) is returned
    next to the result code. *)
Record sqlite3_abi := {
  engine : Type;
  sqlite3_open : string -> engine -> (Z * sqlite3_ptr) * engine;
  sqlite3_open16 : wstring -> engine -> (Z * sqlite3_ptr) * engine;
  sqlite3_close : sqlite3_ptr -> engine -> Z * engine;
  sqlite3_prepare_v2 :
    sqlite3_ptr -> string -> Z -> engine -> (Z * sqlite3_stmt_ptr) * engine;
  sqlite3_prepare16_v2 :
    sqlite3_ptr -> wstring -> Z -> engine -> (Z * sqlite3_stmt_ptr) * engine;
  sqlite3_finalize : sqlite3_stmt_ptr -> engine -> Z * engine;
  sqlite3_step : sqlite3_stmt_ptr -> engine -> Z * engine;
  sqlite3_db_handle : sqlite3_stmt_ptr -> engine -> sqlite3_ptr;
  sqlite3_extended_errcode : sqlite3_ptr -> engine -> Z;
  sqlite3_errmsg : sqlite3_ptr -> engine -> string;
  sqlite3_column_int : sqlite3_stmt_ptr -> Z -> engine -> Z * engine;
  sqlite3_column_text : sqlite3_stmt_ptr -> Z -> engine -> string * engine;
  sqlite3_column_text16 : sqlite3_stmt_ptr -> Z -> engine -> wstring * engine;
  sqlite3_column_bytes : sqlite3_stmt_ptr -> Z -> engine -> Z * engine;
  sqlite3_column_bytes16 : sqlite3_stmt_ptr -> Z -> engine -> Z * engine
}.

(** One entry of the log of ABI calls. *)
Inductive Call :=
| call_open (filename : string)
| call_open16 (filename : wstring)
| call_close (db : sqlite3_ptr)
| call_prepare_v2 (db : sqlite3_ptr) (text : string)
| call_prepare16_v2 (db : sqlite3_ptr) (text : wstring)
| call_finalize (stmt : sqlite3_stmt_ptr)
| call_step (stmt : sqlite3_stmt_ptr)
| call_db_handle (stmt : sqlite3_stmt_ptr)
| call_extended_errcode (db : sqlite3_ptr)
| call_errmsg (db : sqlite3_ptr)
| call_column_int (stmt : sqlite3_stmt_ptr) (column : Z)
| call_column_text (stmt : sqlite3_stmt_ptr) (column : Z)
| call_column_text16 (stmt : sqlite3_stmt_ptr) (column : Z)
| call_column_bytes (stmt : sqlite3_stmt_ptr) (column : Z)
| call_column_bytes16 (stmt : sqlite3_stmt_ptr) (column : Z).

Definition is_close (db : sqlite3_ptr) (c : Call) : bool :=
  match c with call_close d => d =? db | _ => false end.

Definition is_finalize (stmt : sqlite3_stmt_ptr) (c : Call) : bool :=
  match c with call_finalize s => s =? stmt | _ => false end.

Definition is_step (c : Call) : bool :=
  match c with call_step _ => true | _ => false end.

Definition count (p : Call -> bool) (l : list Call) : nat :=
  List.length (filter p l).

(** [struct Exception]. *)
Record Exception := { Result : Z; Message : string }.

(** How a call ends: by returning or by an exception in flight. *)
Inductive Outcome (A : Type) :=
| Returned (a : A)
| Thrown (e : Exception).
Arguments Thrown {A} e.

(** ** A small engine

    One instance of [sqlite3_abi], to run the wrappers on: connections and
    statements are numbered from 1, null is 0, only the in-memory name can be
    opened, and two statements compile. *)
Module Toy.

Record db := { db_ptr : Z; db_errcode : Z; db_errmsg : string }.

Record stmt := {
  stmt_ptr : Z;
  stmt_db : Z;
  stmt_pending : list (Z * string);
  stmt_row : Z * string
}.

Record state := { fresh : Z; dbs : list db; stmts : list stmt }.

Definition init : state := {| fresh := 1; dbs := []; stmts := [] |}.

Definition wide (s : string) : wstring :=
  map (fun c => Z.of_nat (Ascii.nat_of_ascii c)) (list_ascii_of_string s).

Definition narrow (w : wstring) : string :=
  string_of_list_ascii (map (fun z => Ascii.ascii_of_nat (Z.to_nat z)) w).

Definition find_db (p : Z) (s : state) : option db :=
  find (fun d => db_ptr d =? p) (dbs s).

Definition find_stmt (p : Z) (s : state) : option stmt :=
  find (fun t => stmt_ptr t =? p) (stmts s).

Definition set_error (p code : Z) (msg : string) (s : state) : state :=
  {| fresh := fresh s;
     dbs := map (fun d => if db_ptr d =? p
                          then {| db_ptr := p; db_errcode := code; db_errmsg := msg |}
                          else d) (dbs s);
     stmts := stmts s |}.

Definition open (filename : string) (s : state) : (Z * Z) * state :=
  let p := fresh s in
  let d := if String.eqb filename ":memory:"
           then {| db_ptr := p; db_errcode := 0; db_errmsg := "not an error" |}
           else {| db_ptr := p; db_errcode := 14;
                   db_errmsg := "unable to open database file" |} in
  ((db_errcode d, p),
   {| fresh := p + 1; dbs := d :: dbs s; stmts := stmts s |}).

Definition close (p : Z) (s : state) : Z * state :=
  match find_db p s with
  | Some _ =>
      (0, {| fresh := fresh s;
             dbs := filter (fun d => negb (db_ptr d =? p)) (dbs s);
             stmts := stmts s |})
  | None => (21, s)
  end.

Definition plan (text : string) : option (list (Z * string)) :=
  if String.eqb text "SELECT 42" then Some [(42, "42"%string)]
  else if String.eqb text "CREATE TABLE t(x INTEGER)" then Some []
  else None.

Definition prepare (p : Z) (text : string) (nbyte : Z) (s : state)
  : (Z * Z) * state :=
  match find_db p s with
  | None => ((21, 0), s)
  | Some _ =>
      match plan text with
      | None => ((1, 0), set_error p 1 "syntax error" s)
      | Some rows =>
          let q := fresh s in
          ((0, q),
           {| fresh := q + 1; dbs := dbs s;
              stmts := {| stmt_ptr := q; stmt_db := p; stmt_pending := rows;
                          stmt_row := (0, ""%string) |} :: stmts s |})
      end
  end.

Definition finalize (q : Z) (s : state) : Z * state :=
  (0, {| fresh := fresh s; dbs := dbs s;
         stmts := filter (fun t => negb (stmt_ptr t =? q)) (stmts s) |}).

Definition step (q : Z) (s : state) : Z * state :=
  match find_stmt q s with
  | None => (21, s)
  | Some t =>
      match stmt_pending t with
      | [] => (101, s)
      | row :: rest =>
          (100,
           {| fresh := fresh s; dbs := dbs s;
              stmts := map (fun u => if stmt_ptr u =? q
                                     then {| stmt_ptr := q; stmt_db := stmt_db t;
                                             stmt_pending := rest; stmt_row := row |}
                                     else u) (stmts s) |})
      end
  end.

Definition db_handle (q : Z) (s : state) : Z :=
  match find_stmt q s with Some t => stmt_db t | None => 0 end.

Definition extended_errcode (p : Z) (s : state) : Z :=
  match find_db p s with Some d => db_errcode d | None => 7 end.

Definition errmsg (p : Z) (s : state) : string :=
  match find_db p s with Some d => db_errmsg d | None => "out of memory" end.

Definition row (q : Z) (s : state) : Z * string :=
  match find_stmt q s with Some t => stmt_row t | None => (0, ""%string) end.

Definition column_int (q column : Z) (s : state) : Z * state :=
  (fst (row q s), s).

Definition column_text (q column : Z) (s : state) : string * state :=
  (snd (row q s), s).

Definition column_text16 (q column : Z) (s : state) : wstring * state :=
  (wide (snd (row q s)), s).

Definition column_bytes (q column : Z) (s : state) : Z * state :=
  (Z.of_nat (String.length (snd (row q s))), s).

Definition column_bytes16 (q column : Z) (s : state) : Z * state :=
  (2 * Z.of_nat (String.length (snd (row q s))), s).

(** The engine after [":memory:"] was opened (connection 1), after [text]
    was then prepared on it (statement 2), and after one step of that. *)
Definition opened : state := snd (open ":memory:" init).
Definition prepared (text : string) : state :=
  snd (prepare 1 text (-1) opened).
Definition stepped (text : string) : state := snd (step 2 (prepared text)).

Definition abi : sqlite3_abi := {|
  engine := state;
  sqlite3_open := open;
  sqlite3_open16 := fun w => open (narrow w);
  sqlite3_close := close;
  sqlite3_prepare_v2 := prepare;
  sqlite3_prepare16_v2 := fun p w => prepare p (narrow w);
  sqlite3_finalize := finalize;
  sqlite3_step := step;
  sqlite3_db_handle := db_handle;
  sqlite3_extended_errcode := extended_errcode;
  sqlite3_errmsg := errmsg;
  sqlite3_column_int := column_int;
  sqlite3_column_text := column_text;
  sqlite3_column_text16 := column_text16;
  sqlite3_column_bytes := column_bytes;
  sqlite3_column_bytes16 := column_bytes16
|}.

End Toy.

Section Wrapper.

Variable abi : sqlite3_abi.
Variable build : Build.
Variable platform : Platform.

(** The world outside the program: the engine, and the ABI calls made so
    far, the latest first. *)
Record World := { native : engine abi; trace : list Call }.

(** A member function of a class [S]. *)
Definition M (S A : Type) := S -> World -> Outcome A * S * World.

Definition ret {S A} (a : A) : M S A := fun this w => (Returned a, this, w).

Definition bind {S A B} (m : M S A) (f : A -> M S B) : M S B :=
  fun this w =>
    match m this w with
    | (Returned a, this', w') => f a this' w'
    | (Thrown e, this', w') => (Thrown e, this', w')
    end.

Definition throw {S A} (e : Exception) : M S A :=
  fun this w => (Thrown e, this, w).

Definition get {S} : M S S := fun this w => (Returned this, this, w).
Definition put {S} (s : S) : M S unit := fun _ w => (Returned tt, s, w).

Notation "x <- m ;; k" := (bind m (fun x => k))
  (at level 61, m at next level, right associativity).
Notation "m ;; k" := (bind m (fun _ => k))
  (at level 61, right associativity).

(** A call into the engine that may change it. *)
Definition abi_call {S A} (c : Call) (f : engine abi -> A * engine abi)
  : M S A :=
  fun this w =>
    let (a, n) := f (native w) in
    (Returned a, this, {| native := n; trace := c :: trace w |}).

(** A call into the engine that only reads it. *)
Definition abi_read {S A} (c : Call) (f : engine abi -> A) : M S A :=
  abi_call c (fun n => (f n, n)).

(** [obj.method()] for another object [obj] reached through a reference to
    const: the caller's copy of it is what it was. *)
Definition call_const {S T A} (obj : T) (m : M T A) : M S A :=
  fun this w => let '(r, _, w') := m obj w in (r, this, w').

(** A block that declares one local object: [body] runs on the receiver
    paired with the local, and the local's destructor runs when the block is
    left, by return or by exception. *)
Definition scope {S L A} (init : L) (dtor : M L unit) (body : M (S * L) A)
  : M S A :=
  fun this w =>
    let '(r, (this', l), w') := body (this, init) w in
    let '(_, _, w'') := dtor l w' in
    (r, this', w'').

Definition on_local {S L A} (m : M L A) : M (S * L) A :=
  fun sl w => let '(r, l', w') := m (snd sl) w in (r, (fst sl, l'), w').

(** ** The [assert] macro of SQLite.hpp

    With [NDEBUG] the macro is [((void)0)]; without it the replacement list
    holds a comment only, hence is empty.  Either way the argument is dropped
    by the preprocessor: [condition] is not evaluated. *)
Definition assert {S} (condition : M S bool) : M S unit :=
  match build with
  | NDEBUG_defined => ret tt
  | NDEBUG_undefined => ret tt
  end.

(** [Exception::Exception(sqlite3 * const connection)]. *)
Definition Exception_ctor {S} (connection : sqlite3_ptr) : M S Exception :=
  result <- abi_read (call_extended_errcode connection)
              (sqlite3_extended_errcode abi connection) ;;
  message <- abi_read (call_errmsg connection) (sqlite3_errmsg abi connection) ;;
  ret {| Result := result; Message := message |}.

(** ** Handle.hpp *)

(** Modelled from the spec: Handle.hpp (the class templates [HandleTraits]
    and [Handle], and [swap]) is not in the source tree.  A policy supplies
    the sentinel and the release action. *)
Record HandleTraits := {
  Invalid : Z;
  Close : forall S, Z -> M S unit
}.

(** Modelled from the spec: [Handle] of Handle.hpp owns one value, or the
    sentinel. *)
Record Handle := { m_value : Z }.

Section Handle.

Variable Traits : HandleTraits.

(** Modelled from the spec: [Handle()] of Handle.hpp constructs empty. *)
Definition Handle_default : Handle := {| m_value := Invalid Traits |}.

(** Modelled from the spec: [Handle(value)] of Handle.hpp takes ownership of
    an acquired value. *)
Definition Handle_own (value : Z) : Handle := {| m_value := value |}.

(** Modelled from the spec: [explicit operator bool] of Handle.hpp is true
    iff the handle is not empty. *)
Definition Handle_bool : M Handle bool :=
  h <- get ;; ret (negb (m_value h =? Invalid Traits)).

(** Modelled from the spec: [Get()] of Handle.hpp returns the owned value
    and keeps ownership. *)
Definition Handle_Get : M Handle Z :=
  h <- get ;; ret (m_value h).

(** Modelled from the spec: release in Handle.hpp; if the handle is not
    empty, the policy's release action is invoked once and the value is
    cleared. *)
Definition Handle_Close : M Handle unit :=
  nonempty <- Handle_bool ;;
  if nonempty : bool then
    h <- get ;;
    Close Traits (m_value h) ;;
    put Handle_default
  else ret tt.

(** Modelled from the spec: [Set()] of Handle.hpp releases what is owned,
    then hands out the slot.  [write] is the foreign call that fills the slot
    and reports a result code. *)
Definition Handle_Set (write : M Handle (Z * Z)) : M Handle Z :=
  Handle_Close ;;
  r <- write ;;
  put (Handle_own (snd r)) ;;
  ret (fst r).

(** Modelled from the spec: the destructor of Handle.hpp releases what is
    owned. *)
Definition Handle_dtor : M Handle unit := Handle_Close.

(** Modelled from the spec: move construction in Handle.hpp; the new handle
    owns the value and the source is left empty. *)
Definition Handle_move : M Handle Handle :=
  src <- get ;;
  put Handle_default ;;
  ret (Handle_own (m_value src)).

(** Modelled from the spec: [swap(left, right)] of Handle.hpp exchanges the
    owned values. *)
Definition Handle_swap : M (Handle * Handle) unit :=
  p <- get ;; put (snd p, fst p).

End Handle.

(** ** class Connection *)

(** Modelled from the spec: the sentinel of [HandleTraits<sqlite3 *>] and of
    [HandleTraits<sqlite3_stmt *>], which the two policies inherit from
    Handle.hpp. *)
Variable Invalid_sqlite3 : sqlite3_ptr.
Variable Invalid_sqlite3_stmt : sqlite3_stmt_ptr.

(** [ConnectionHandleTraits::Close]. *)
Definition ConnectionHandleTraits_Close {S} (value : sqlite3_ptr) : M S unit :=
  assert (rc <- abi_call (call_close value) (sqlite3_close abi value) ;;
          ret (SQLITE_OK =? rc)).

Definition ConnectionHandleTraits : HandleTraits :=
  {| Invalid := Invalid_sqlite3; Close := @ConnectionHandleTraits_Close |}.

Record Connection := { Connection_m_handle : Handle }.

(** A member function of [m_handle], called from a member function of the
    connection. *)
Definition Connection_on_handle {A} (m : M Handle A) : M Connection A :=
  fun this w =>
    let '(r, h, w') := m (Connection_m_handle this) w in
    (r, {| Connection_m_handle := h |}, w').

(** [Connection() noexcept = default]. *)
Definition Connection_default : Connection :=
  {| Connection_m_handle := Handle_default ConnectionHandleTraits |}.

(** The implicit destructor: destroys [m_handle]. *)
Definition Connection_dtor : M Connection unit :=
  Connection_on_handle (Handle_dtor ConnectionHandleTraits).

(** The implicit move constructor. *)
Definition Connection_move : M Connection Connection :=
  h <- Connection_on_handle (Handle_move ConnectionHandleTraits) ;;
  ret {| Connection_m_handle := h |}.

(** [explicit operator bool() const noexcept]. *)
Definition Connection_bool : M Connection bool :=
  Connection_on_handle (Handle_bool ConnectionHandleTraits).

(** [GetAbi() const noexcept]. *)
Definition Connection_GetAbi : M Connection sqlite3_ptr :=
  Connection_on_handle Handle_Get.

(** [[[noreturn]] void ThrowLastError() const]. *)
Definition Connection_ThrowLastError {A} : M Connection A :=
  db <- Connection_GetAbi ;;
  e <- Exception_ctor db ;;
  throw e.

(** [swap(m_handle, temp.m_handle)], [this] first and [temp] second. *)
Definition Connection_swap_handles : M (Connection * Connection) unit :=
  fun p w =>
    let '(r, (h1, h2), w') :=
      Handle_swap (Connection_m_handle (fst p), Connection_m_handle (snd p)) w in
    (r, ({| Connection_m_handle := h1 |}, {| Connection_m_handle := h2 |}), w').

(** [InternalOpen(open, filename)]; [logged] names the entry point that
    [open] is, for the log. *)
Definition Connection_InternalOpen {C}
    (logged : C -> Call)
    (open : C -> engine abi -> (Z * sqlite3_ptr) * engine abi)
    (filename : C) : M Connection unit :=
  scope Connection_default Connection_dtor
    (rc <- on_local (Connection_on_handle
             (Handle_Set ConnectionHandleTraits
                (abi_call (logged filename) (open filename)))) ;;
     (if negb (SQLITE_OK =? rc)
      then on_local Connection_ThrowLastError
      else ret tt) ;;
     Connection_swap_handles).

(** [Open(char const * const filename)]. *)
Definition Connection_Open (filename : string) : M Connection unit :=
  Connection_InternalOpen call_open (sqlite3_open abi) filename.

(** [Open(wchar_t const * const filename)]. *)
Definition Connection_Open_wide (filename : wstring) : M Connection unit :=
  Connection_InternalOpen call_open16 (sqlite3_open16 abi) filename.

(** A constructor with a body: the members are initialised, the body runs,
    and if it throws the members are destroyed again. *)
Definition construct {S T} (init : T) (dtor : M T unit) (body : M T unit)
  : M S T :=
  fun this w =>
    match body init w with
    | (Returned _, obj, w') => (Returned obj, this, w')
    | (Thrown e, obj, w') =>
        let '(_, _, w'') := dtor obj w' in (Thrown e, this, w'')
    end.

(** [explicit Connection(C const * const filename)], for [C = char] and for
    [C = wchar_t]. *)
Definition Connection_ctor {S} (filename : string) : M S Connection :=
  construct Connection_default Connection_dtor (Connection_Open filename).

Definition Connection_ctor_wide {S} (filename : wstring) : M S Connection :=
  construct Connection_default Connection_dtor (Connection_Open_wide filename).

(** The literals [":memory:"] and [L":memory:"]. *)
Definition memory_name : string := ":memory:".
Definition memory_name_wide : wstring :=
  map (fun c => Z.of_nat (Ascii.nat_of_ascii c)) (list_ascii_of_string memory_name).

(** [static Connection Memory()] and [static Connection WideMemory()]. *)
Definition Connection_Memory {S} : M S Connection :=
  Connection_ctor memory_name.

Definition Connection_WideMemory {S} : M S Connection :=
  Connection_ctor_wide memory_name_wide.

(** ** struct Reader<T> *)

Section Reader.

Variable T : Type.

(** [static_cast<T const *>(this)->GetAbi()]. *)
Variable GetAbi : M T sqlite3_stmt_ptr.

Definition Reader_GetInt (column : Z) : M T Z :=
  stmt <- GetAbi ;;
  abi_call (call_column_int stmt column) (sqlite3_column_int abi stmt column).

Definition Reader_GetString (column : Z) : M T string :=
  stmt <- GetAbi ;;
  abi_call (call_column_text stmt column) (sqlite3_column_text abi stmt column).

Definition Reader_GetWideString (column : Z) : M T wstring :=
  stmt <- GetAbi ;;
  abi_call (call_column_text16 stmt column)
    (sqlite3_column_text16 abi stmt column).

Definition Reader_GetStringLength (column : Z) : M T Z :=
  stmt <- GetAbi ;;
  abi_call (call_column_bytes stmt column) (sqlite3_column_bytes abi stmt column).

(** The quotient is taken in [size_t], the operands' common type, and
    converted to the [int] that is returned. *)
Definition Reader_GetWideStringLength (column : Z) : M T Z :=
  stmt <- GetAbi ;;
  bytes <- abi_call (call_column_bytes16 stmt column)
             (sqlite3_column_bytes16 abi stmt column) ;;
  ret (to_int (to_size_t platform bytes / sizeof_wchar_t platform)).

End Reader.

(** ** class Statement *)

(** [StatementHandleTraits::Close]. *)
Definition StatementHandleTraits_Close {S} (value : sqlite3_stmt_ptr)
  : M S unit :=
  assert (rc <- abi_call (call_finalize value) (sqlite3_finalize abi value) ;;
          ret (SQLITE_OK =? rc)).

Definition StatementHandleTraits : HandleTraits :=
  {| Invalid := Invalid_sqlite3_stmt; Close := @StatementHandleTraits_Close |}.

Record Statement := { Statement_m_handle : Handle }.

Definition Statement_on_handle {A} (m : M Handle A) : M Statement A :=
  fun this w =>
    let '(r, h, w') := m (Statement_m_handle this) w in
    (r, {| Statement_m_handle := h |}, w').

(** [Statement() noexcept = default]. *)
Definition Statement_default : Statement :=
  {| Statement_m_handle := Handle_default StatementHandleTraits |}.

(** The implicit destructor: destroys [m_handle]. *)
Definition Statement_dtor : M Statement unit :=
  Statement_on_handle (Handle_dtor StatementHandleTraits).

(** The implicit move constructor. *)
Definition Statement_move : M Statement Statement :=
  h <- Statement_on_handle (Handle_move StatementHandleTraits) ;;
  ret {| Statement_m_handle := h |}.

(** [explicit operator bool() const noexcept]. *)
Definition Statement_bool : M Statement bool :=
  Statement_on_handle (Handle_bool StatementHandleTraits).

(** [GetAbi() const noexcept]. *)
Definition Statement_GetAbi : M Statement sqlite3_stmt_ptr :=
  Statement_on_handle Handle_Get.

(** [[[noreturn]] void ThrowLastError() const]. *)
Definition Statement_ThrowLastError {A} : M Statement A :=
  stmt <- Statement_GetAbi ;;
  db <- abi_read (call_db_handle stmt) (sqlite3_db_handle abi stmt) ;;
  e <- Exception_ctor db ;;
  throw e.

(** [InternalPrepare(connection, prepare, text)]; the length argument is
    [-1] and the tail pointer is null. *)
Definition Statement_InternalPrepare {C}
    (connection : Connection)
    (logged : sqlite3_ptr -> C -> Call)
    (prepare : sqlite3_ptr -> C -> Z -> engine abi ->
               (Z * sqlite3_stmt_ptr) * engine abi)
    (text : C) : M Statement unit :=
  assert (call_const connection Connection_bool) ;;
  db <- call_const connection Connection_GetAbi ;;
  rc <- Statement_on_handle
          (Handle_Set StatementHandleTraits
             (abi_call (logged db text) (prepare db text (-1)))) ;;
  if negb (SQLITE_OK =? rc)
  then call_const connection Connection_ThrowLastError
  else ret tt.

(** [Prepare(connection, text)], for narrow and for wide [text]. *)
Definition Statement_Prepare (connection : Connection) (text : string)
  : M Statement unit :=
  Statement_InternalPrepare connection call_prepare_v2
    (sqlite3_prepare_v2 abi) text.

Definition Statement_Prepare_wide (connection : Connection) (text : wstring)
  : M Statement unit :=
  Statement_InternalPrepare connection call_prepare16_v2
    (sqlite3_prepare16_v2 abi) text.

(** [bool Step() const]. *)
Definition Statement_Step : M Statement bool :=
  stmt <- Statement_GetAbi ;;
  result <- abi_call (call_step stmt) (sqlite3_step abi stmt) ;;
  if result =? SQLITE_ROW then ret true
  else if result =? SQLITE_DONE then ret false
  else Statement_ThrowLastError.

(** [void Execute() const]. *)
Definition Statement_Execute : M Statement unit :=
  assert (row <- Statement_Step ;; ret (negb row)).

(** The members inherited from [Reader<Statement>]. *)
Definition Statement_GetInt := Reader_GetInt Statement_GetAbi.
Definition Statement_GetString := Reader_GetString Statement_GetAbi.
Definition Statement_GetWideString := Reader_GetWideString Statement_GetAbi.
Definition Statement_GetStringLength := Reader_GetStringLength Statement_GetAbi.
Definition Statement_GetWideStringLength :=
  Reader_GetWideStringLength Statement_GetAbi.

(** ** Blocks of client code *)

(** [{ Connection c = Connection::Memory(); Connection d = std::move(c);
       Statement s; s.Prepare(d, text); }] *)
Definition block_open_move_prepare (text : string) : M unit unit :=
  c <- Connection_Memory ;;
  scope c Connection_dtor
    (d <- on_local Connection_move ;;
     scope d Connection_dtor
       (scope Statement_default Statement_dtor
          (env <- get ;;
           on_local (Statement_Prepare (snd (fst env)) text)))).

(** [{ Connection c = Connection::Memory(); Statement s; s.Prepare(c, text);
       s.Execute(); return s.Step(); }] *)
Definition block_execute_then_step (text : string) : M unit bool :=
  c <- Connection_Memory ;;
  scope c Connection_dtor
    (scope Statement_default Statement_dtor
       (env <- get ;;
        on_local (Statement_Prepare (snd (fst env)) text) ;;
        on_local Statement_Execute ;;
        on_local Statement_Step)).

(** [{ Connection c; c.Open(filename); }], up to the point where the block
    is left: what [c] and the world are after [Open]. *)
Definition block_open (filename : string)
  : World -> Outcome unit * Connection * World :=
  Connection_Open filename Connection_default.

(** [{ Connection c; Statement s; s.Prepare(c, text); }], likewise up to
    the end of [Prepare]. *)
Definition block_prepare_closed (text : string)
  : World -> Outcome unit * Statement * World :=
  Statement_Prepare Connection_default text Statement_default.

(** What [Exception(db)] captures from the engine, and the world after it:
    the code is read first, then the message. *)
Definition last_error (db : sqlite3_ptr) (n : engine abi) : Exception :=
  {| Result := sqlite3_extended_errcode abi db n;
     Message := sqlite3_errmsg abi db n |}.

Definition after_error (db : sqlite3_ptr) (w : World) : World :=
  {| native := native w;
     trace := call_errmsg db :: call_extended_errcode db :: trace w |}.

(** The receiver object, the result and the world a call leaves behind. *)
Definition receiver_after {S A} (r : Outcome A * S * World) : S := snd (fst r).
Definition outcome_of {S A} (r : Outcome A * S * World) : Outcome A :=
  fst (fst r).
Definition world_after {S A} (r : Outcome A * S * World) : World := snd r.

(** The world after one more ABI call that left the engine in state [n]. *)
Definition logged_call (c : Call) (n : engine abi) (w : World) : World :=
  {| native := n; trace := c :: trace w |}.

(** A world in which no ABI call has been made yet. *)
Definition fresh_world (n : engine abi) : World :=
  {| native := n; trace := [] |}.

(** ** Sequences of member calls *)

(** A call that gives a handle back to the engine. *)
Definition is_release (c : Call) : bool :=
  match c with call_close _ | call_finalize _ => true | _ => false end.

(** The calls [added] since the world [w] all satisfy [p]. *)
Definition only_adds {S A} (p : Call -> bool) (r : Outcome A * S * World)
    (w : World) : Prop :=
  exists added,
    trace (world_after r) = added ++ trace w /\ forallb p added = true.

Definition no_release (c : Call) : bool := negb (is_release c).

(** A member function of the first object of a pair. *)
Definition on_first {S L A} (m : M S A) : M (S * L) A :=
  fun sl w => let '(r, s', w') := m (fst sl) w in (r, (s', snd sl), w').

(** A call whose value is not used. *)
Definition discard {S A} (m : M S A) : M S unit := m ;; ret tt.

(** One call of a member function, on a connection [c] or on a statement
    [s]; [Prepare] is given [c]. *)
Inductive Member :=
| member_Open (filename : string)
| member_Open_wide (filename : wstring)
| member_Prepare (text : string)
| member_Prepare_wide (text : wstring)
| member_Step
| member_Execute
| member_GetInt (column : Z)
| member_GetString (column : Z)
| member_GetWideString (column : Z)
| member_GetStringLength (column : Z)
| member_GetWideStringLength (column : Z).

Definition is_Open (m : Member) : bool :=
  match m with member_Open _ | member_Open_wide _ => true | _ => false end.

Definition is_Prepare (m : Member) : bool :=
  match m with member_Prepare _ | member_Prepare_wide _ => true | _ => false end.

Definition is_member_Step (m : Member) : bool :=
  match m with member_Step => true | _ => false end.

Definition call_member (m : Member) : M (Connection * Statement) unit :=
  match m with
  | member_Open filename => on_first (Connection_Open filename)
  | member_Open_wide filename => on_first (Connection_Open_wide filename)
  | member_Prepare text =>
      cs <- get ;; on_local (Statement_Prepare (fst cs) text)
  | member_Prepare_wide text =>
      cs <- get ;; on_local (Statement_Prepare_wide (fst cs) text)
  | member_Step => on_local (discard Statement_Step)
  | member_Execute => on_local Statement_Execute
  | member_GetInt column => on_local (discard (Statement_GetInt column))
  | member_GetString column => on_local (discard (Statement_GetString column))
  | member_GetWideString column =>
      on_local (discard (Statement_GetWideString column))
  | member_GetStringLength column =>
      on_local (discard (Statement_GetStringLength column))
  | member_GetWideStringLength column =>
      on_local (discard (Statement_GetWideStringLength column))
  end.

(** The calls one after the other; an exception ends the sequence. *)
Fixpoint call_members (l : list Member) : M (Connection * Statement) unit :=
  match l with
  | [] => ret tt
  | m :: rest => call_member m ;; call_members rest
  end.

(** [{ Connection c; Statement s; ... }]: the calls are made on two
    default-constructed locals, which are destroyed when the block is left,
    [s] first. *)
Definition block_of_calls (l : list Member) : World -> Outcome unit * World :=
  fun w =>
    let '(r, cs, w1) := call_members l (Connection_default, Statement_default) w in
    let '(_, _, w2) := Statement_dtor (snd cs) w1 in
    let '(_, _, w3) := Connection_dtor (fst cs) w2 in
    (r, w3).

(** [s.Prepare(c, text); if (s.Step()) return read(s);], with nothing returned
    when there is no row. *)
Definition prepare_step_read {A} (read : M Statement A) (c : Connection)
    (text : string) : M Statement (option A) :=
  Statement_Prepare c text ;;
  row <- Statement_Step ;;
  if row : bool then a <- read ;; ret (Some a) else ret None.

(** ** Properties *)

Local Arguments Z.eqb : simpl nomatch.

Lemma assert_skips S (condition : M S bool) this w :
  assert condition this w = (Returned tt, this, w).
Proof. unfold assert. destruct build; reflexivity. Qed.

(** Release through either policy reaches no entry point of the engine. *)
Lemma ConnectionHandleTraits_Close_skips S value (this : S) w :
  ConnectionHandleTraits_Close value this w = (Returned tt, this, w).
Proof. apply assert_skips. Qed.

Lemma StatementHandleTraits_Close_skips S value (this : S) w :
  StatementHandleTraits_Close value this w = (Returned tt, this, w).
Proof. apply assert_skips. Qed.

Lemma Handle_default_eta Traits h :
  (m_value h =? Invalid Traits) = true -> h = Handle_default Traits.
Proof.
  destruct h as [v]; simpl; intros E.
  apply Z.eqb_eq in E. subst v. reflexivity.
Qed.

Lemma Connection_Handle_Close_run h w :
  Handle_Close ConnectionHandleTraits h w
  = (Returned tt, Handle_default ConnectionHandleTraits, w).
Proof.
  unfold Handle_Close, Handle_bool, bind, get, ret, put.
  destruct (m_value h =? Invalid ConnectionHandleTraits) eqn:E; simpl.
  - rewrite (Handle_default_eta _ _ E). reflexivity.
  - rewrite ConnectionHandleTraits_Close_skips. reflexivity.
Qed.

Lemma Statement_Handle_Close_run h w :
  Handle_Close StatementHandleTraits h w
  = (Returned tt, Handle_default StatementHandleTraits, w).
Proof.
  unfold Handle_Close, Handle_bool, bind, get, ret, put.
  destruct (m_value h =? Invalid StatementHandleTraits) eqn:E; simpl.
  - rewrite (Handle_default_eta _ _ E). reflexivity.
  - rewrite StatementHandleTraits_Close_skips. reflexivity.
Qed.

(** The destructors leave the world as it is, whatever is owned. *)
Lemma Connection_dtor_run c w :
  Connection_dtor c w = (Returned tt, Connection_default, w).
Proof.
  unfold Connection_dtor, Connection_on_handle, Handle_dtor.
  rewrite Connection_Handle_Close_run. reflexivity.
Qed.

Lemma Statement_dtor_run s w :
  Statement_dtor s w = (Returned tt, Statement_default, w).
Proof.
  unfold Statement_dtor, Statement_on_handle, Handle_dtor.
  rewrite Statement_Handle_Close_run. reflexivity.
Qed.

Lemma Exception_ctor_run S db (this : S) w :
  Exception_ctor db this w
  = (Returned (last_error db (native w)), this, after_error db w).
Proof. reflexivity. Qed.

Lemma Connection_ThrowLastError_run A c w :
  @Connection_ThrowLastError A c w
  = (Thrown (last_error (m_value (Connection_m_handle c)) (native w)),
     c, after_error (m_value (Connection_m_handle c)) w).
Proof. destruct c as [[v]]. reflexivity. Qed.

(** What [InternalOpen] does, by the result code of the native open. *)
Lemma Connection_InternalOpen_run C logged open (filename : C) this w :
  Connection_InternalOpen logged open filename this w
  = let '((rc, db), n) := open filename (native w) in
    let w1 := {| native := n; trace := logged filename :: trace w |} in
    if SQLITE_OK =? rc
    then (Returned tt, {| Connection_m_handle := Handle_own db |}, w1)
    else (Thrown (last_error db n), this, after_error db w1).
Proof.
  unfold Connection_InternalOpen, scope, bind, on_local, Connection_on_handle.
  unfold Handle_Set, bind. simpl.
  rewrite Connection_Handle_Close_run.
  unfold abi_call.
  destruct (open filename (native w)) as [[rc db] n]; simpl.
  destruct (SQLITE_OK =? rc); simpl.
  - rewrite Connection_dtor_run. reflexivity.
  - rewrite Connection_dtor_run. reflexivity.
Qed.

Lemma Statement_GetAbi_run s w :
  Statement_GetAbi s w = (Returned (m_value (Statement_m_handle s)), s, w).
Proof. destruct s as [[v]]. reflexivity. Qed.

Lemma Connection_GetAbi_run c w :
  Connection_GetAbi c w = (Returned (m_value (Connection_m_handle c)), c, w).
Proof. destruct c as [[v]]. reflexivity. Qed.

Lemma Statement_ThrowLastError_run A s w :
  let stmt := m_value (Statement_m_handle s) in
  let db := sqlite3_db_handle abi stmt (native w) in
  @Statement_ThrowLastError A s w
  = (Thrown (last_error db (native w)), s,
     after_error db (logged_call (call_db_handle stmt) (native w) w)).
Proof. destruct s as [[v]]. reflexivity. Qed.

(** What [Step] does, by the result code of the native step. *)
Lemma Statement_Step_run s w :
  let stmt := m_value (Statement_m_handle s) in
  let rc := fst (sqlite3_step abi stmt (native w)) in
  let n := snd (sqlite3_step abi stmt (native w)) in
  let w1 := logged_call (call_step stmt) n w in
  Statement_Step s w
  = if rc =? SQLITE_ROW then (Returned true, s, w1)
    else if rc =? SQLITE_DONE then (Returned false, s, w1)
    else @Statement_ThrowLastError bool s w1.
Proof.
  destruct s as [[v]]. simpl.
  unfold Statement_Step, bind. rewrite Statement_GetAbi_run. simpl.
  unfold abi_call, logged_call.
  destruct (sqlite3_step abi v (native w)) as [rc n]; simpl.
  destruct (rc =? SQLITE_ROW); [reflexivity|].
  destruct (rc =? SQLITE_DONE); reflexivity.
Qed.

(** What [InternalPrepare] does, by the result code of the native prepare. *)
Lemma Statement_InternalPrepare_run C connection logged prepare (text : C) s w :
  let db := m_value (Connection_m_handle connection) in
  Statement_InternalPrepare connection logged prepare text s w
  = let '((rc, stmt), n) := prepare db text (-1) (native w) in
    let w1 := logged_call (logged db text) n w in
    let s1 := {| Statement_m_handle := Handle_own stmt |} in
    if SQLITE_OK =? rc then (Returned tt, s1, w1)
    else (Thrown (last_error db n), s1, after_error db w1).
Proof.
  destruct connection as [[db]]; simpl.
  unfold Statement_InternalPrepare, bind.
  rewrite assert_skips.
  unfold call_const. rewrite Connection_GetAbi_run. simpl.
  unfold Statement_on_handle, Handle_Set, bind.
  rewrite Statement_Handle_Close_run.
  unfold abi_call, logged_call.
  destruct (prepare db text (-1) (native w)) as [[rc stmt] n]; simpl.
  destruct (SQLITE_OK =? rc); reflexivity.
Qed.

(** C4.  [Step] returns true when the native step reports a row, false when
    it reports completion, and for every other code throws the exception
    built from the connection that [sqlite3_db_handle] gives for the
    statement; the native step is called once, on the owned handle. *)
Theorem Statement_Step_result s w :
  let stmt := m_value (Statement_m_handle s) in
  let rc := fst (sqlite3_step abi stmt (native w)) in
  let n := snd (sqlite3_step abi stmt (native w)) in
  let w1 := logged_call (call_step stmt) n w in
  let db := sqlite3_db_handle abi stmt n in
  (rc = SQLITE_ROW -> Statement_Step s w = (Returned true, s, w1)) /\
  (rc = SQLITE_DONE -> Statement_Step s w = (Returned false, s, w1)) /\
  (rc <> SQLITE_ROW -> rc <> SQLITE_DONE ->
   Statement_Step s w
   = (Thrown {| Result := sqlite3_extended_errcode abi db n;
                Message := sqlite3_errmsg abi db n |},
      s, after_error db (logged_call (call_db_handle stmt) n w1))).
Proof.
  intros stmt rc n w1 db.
  pose proof (Statement_Step_run s w) as R. cbv zeta in R.
  fold stmt rc n w1 in R.
  repeat split.
  - intros E. rewrite R, E. reflexivity.
  - intros E. rewrite R, E. reflexivity.
  - intros NR ND. rewrite R.
    apply Z.eqb_neq in NR, ND. rewrite NR, ND.
    apply Statement_ThrowLastError_run.
Qed.

(** C6.  [ThrowLastError] never returns: on a connection it throws the
    exception whose code is [sqlite3_extended_errcode] and whose message is
    [sqlite3_errmsg] of the owned handle, read at that moment; on a statement
    the same, of the connection the statement belongs to. *)
Theorem ThrowLastError_raises A c s w :
  (exists e,
     outcome_of (@Connection_ThrowLastError A c w) = Thrown e /\
     Result e = sqlite3_extended_errcode abi
                  (m_value (Connection_m_handle c)) (native w) /\
     Message e = sqlite3_errmsg abi
                   (m_value (Connection_m_handle c)) (native w)) /\
  (exists e,
     outcome_of (@Statement_ThrowLastError A s w) = Thrown e /\
     let db := sqlite3_db_handle abi (m_value (Statement_m_handle s)) (native w) in
     Result e = sqlite3_extended_errcode abi db (native w) /\
     Message e = sqlite3_errmsg abi db (native w)).
Proof.
  split.
  - rewrite Connection_ThrowLastError_run. eexists. repeat split.
  - rewrite Statement_ThrowLastError_run. eexists. repeat split.
Qed.

Lemma to_size_t_length p x : 0 <= x <= INT_MAX -> to_size_t p x = x.
Proof.
  intros H. unfold to_size_t, INT_MAX in *.
  apply Z.mod_small. destruct p; simpl; lia.
Qed.

Lemma to_int_length x : 0 <= x <= INT_MAX -> to_int x = x.
Proof.
  intros H. unfold to_int, INT_MAX in *.
  rewrite Z.mod_small; lia.
Qed.

Lemma wide_units_bounded p x :
  0 <= x <= INT_MAX -> 0 <= x / sizeof_wchar_t p <= INT_MAX.
Proof.
  intros H. split.
  - apply Z.div_pos; [lia | destruct p; unfold sizeof_wchar_t; lia].
  - apply Z.le_trans with x; [|lia].
    apply Z.div_le_upper_bound; destruct p; unfold sizeof_wchar_t; lia.
Qed.

(** C7.  [GetStringLength] returns what [sqlite3_column_bytes] returns for
    the owned statement and the column, as it is; [GetWideStringLength]
    returns what [sqlite3_column_bytes16] returns, a byte length, divided by
    [sizeof(wchar_t)]. *)
Theorem Reader_lengths s column w :
  let stmt := m_value (Statement_m_handle s) in
  let bytes := fst (sqlite3_column_bytes abi stmt column (native w)) in
  let bytes16 := fst (sqlite3_column_bytes16 abi stmt column (native w)) in
  outcome_of (Statement_GetStringLength column s w) = Returned bytes /\
  (0 <= bytes16 <= INT_MAX ->
   outcome_of (Statement_GetWideStringLength column s w)
   = Returned (bytes16 / sizeof_wchar_t platform)).
Proof.
  destruct s as [[stmt]]; simpl. split.
  - unfold Statement_GetStringLength, Reader_GetStringLength, bind, abi_call.
    rewrite Statement_GetAbi_run; simpl.
    destruct (sqlite3_column_bytes abi stmt column (native w)); reflexivity.
  - intros H.
    unfold Statement_GetWideStringLength, Reader_GetWideStringLength, bind, abi_call.
    rewrite Statement_GetAbi_run; simpl.
    destruct (sqlite3_column_bytes16 abi stmt column (native w)) as [b n].
    simpl in *. unfold outcome_of, ret; simpl.
    rewrite (to_size_t_length platform H).
    rewrite (to_int_length (wide_units_bounded platform H)).
    reflexivity.
Qed.

(** C8.  The boolean conversion of a connection is true exactly when the
    owned handle is not the sentinel; a default-constructed connection
    converts to false and its [GetAbi] returns the sentinel, and neither call
    touches the world: no entry point of the engine is called. *)
Theorem Connection_bool_iff_open c w :
  (exists b,
     Connection_bool c w = (Returned b, c, w) /\
     (b = true <-> m_value (Connection_m_handle c) <> Invalid_sqlite3)) /\
  Connection_bool Connection_default w = (Returned false, Connection_default, w) /\
  Connection_GetAbi Connection_default w
  = (Returned Invalid_sqlite3, Connection_default, w).
Proof.
  repeat split.
  - destruct c as [[v]].
    exists (negb (v =? Invalid_sqlite3)). split; [reflexivity|]. simpl.
    destruct (Z.eqb_spec v Invalid_sqlite3); simpl; split; congruence.
  - unfold Connection_bool, Connection_on_handle, Handle_bool, bind, get, ret.
    simpl. rewrite Z.eqb_refl. reflexivity.
Qed.

Lemma Connection_ctor_run S filename (this : S) w :
  Connection_ctor filename this w
  = let '((rc, db), n) := sqlite3_open abi filename (native w) in
    let w1 := logged_call (call_open filename) n w in
    if SQLITE_OK =? rc
    then (Returned {| Connection_m_handle := Handle_own db |}, this, w1)
    else (Thrown (last_error db n), this, after_error db w1).
Proof.
  unfold Connection_ctor, construct, Connection_Open.
  rewrite Connection_InternalOpen_run. unfold logged_call.
  destruct (sqlite3_open abi filename (native w)) as [[rc db] n].
  destruct (SQLITE_OK =? rc); [reflexivity|].
  rewrite Connection_dtor_run. reflexivity.
Qed.

Lemma Connection_ctor_wide_run S filename (this : S) w :
  Connection_ctor_wide filename this w
  = let '((rc, db), n) := sqlite3_open16 abi filename (native w) in
    let w1 := logged_call (call_open16 filename) n w in
    if SQLITE_OK =? rc
    then (Returned {| Connection_m_handle := Handle_own db |}, this, w1)
    else (Thrown (last_error db n), this, after_error db w1).
Proof.
  unfold Connection_ctor_wide, construct, Connection_Open_wide.
  rewrite Connection_InternalOpen_run. unfold logged_call.
  destruct (sqlite3_open16 abi filename (native w)) as [[rc db] n].
  destruct (SQLITE_OK =? rc); [reflexivity|].
  rewrite Connection_dtor_run. reflexivity.
Qed.

(** [Memory()] makes one call of the engine's narrow open, on the name
    [":memory:"], and [WideMemory()] one call of the wide open, on the wide
    literal; when the open succeeds the connection returned owns the handle
    the engine gave. *)
Lemma Connection_Memory_opens S (this : S) w :
  memory_name = ":memory:"%string /\
  memory_name_wide = [58; 109; 101; 109; 111; 114; 121; 58] /\
  (let r := sqlite3_open abi memory_name (native w) in
   let w1 := logged_call (call_open memory_name) (snd r) w in
   let c := {| Connection_m_handle := Handle_own (snd (fst r)) |} in
   (fst (fst r) = SQLITE_OK ->
    Connection_Memory this w = (Returned c, this, w1) /\
    outcome_of (Connection_bool c w1)
    = Returned (negb (snd (fst r) =? Invalid_sqlite3))) /\
   (fst (fst r) <> SQLITE_OK ->
    Connection_Memory this w
    = (Thrown (last_error (snd (fst r)) (snd r)), this,
       after_error (snd (fst r)) w1))) /\
  (let r := sqlite3_open16 abi memory_name_wide (native w) in
   let w1 := logged_call (call_open16 memory_name_wide) (snd r) w in
   let c := {| Connection_m_handle := Handle_own (snd (fst r)) |} in
   (fst (fst r) = SQLITE_OK ->
    Connection_WideMemory this w = (Returned c, this, w1) /\
    outcome_of (Connection_bool c w1)
    = Returned (negb (snd (fst r) =? Invalid_sqlite3))) /\
   (fst (fst r) <> SQLITE_OK ->
    Connection_WideMemory this w
    = (Thrown (last_error (snd (fst r)) (snd r)), this,
       after_error (snd (fst r)) w1))).
Proof.
  split; [reflexivity|]. split; [reflexivity|].
  unfold Connection_Memory, Connection_WideMemory.
  rewrite Connection_ctor_run, Connection_ctor_wide_run.
  destruct (sqlite3_open abi memory_name (native w)) as [[rc db] n].
  destruct (sqlite3_open16 abi memory_name_wide (native w)) as [[rc' db'] n'].
  simpl. split; (split; intros E).
  - rewrite E. split; reflexivity.
  - rewrite (proj2 (Z.eqb_neq SQLITE_OK rc)); [reflexivity | congruence].
  - rewrite E. split; reflexivity.
  - rewrite (proj2 (Z.eqb_neq SQLITE_OK rc')); [reflexivity | congruence].
Qed.

Lemma abi_call_keeps_receiver S A c (f : engine abi -> A * engine abi)
    (this : S) w :
  receiver_after (abi_call c f this w) = this.
Proof. unfold abi_call. destruct (f (native w)). reflexivity. Qed.

Lemma Reader_accessor_keeps_receiver A (c : sqlite3_stmt_ptr -> Call)
    (f : sqlite3_stmt_ptr -> engine abi -> A * engine abi) s w :
  receiver_after ((stmt <- Statement_GetAbi ;; abi_call (c stmt) (f stmt)) s w)
  = s.
Proof.
  unfold bind. rewrite Statement_GetAbi_run. apply abi_call_keeps_receiver.
Qed.

Lemma Statement_Step_keeps_receiver s w :
  receiver_after (Statement_Step s w) = s.
Proof.
  rewrite Statement_Step_run.
  destruct (_ =? SQLITE_ROW); [reflexivity|].
  destruct (_ =? SQLITE_DONE); [reflexivity|].
  rewrite Statement_ThrowLastError_run. reflexivity.
Qed.

(** C10, amended.  Of the members SQLite.hpp declares, all but [Open] and
    [Prepare] leave the receiver with the handle it had: [Step], [Execute],
    [ThrowLastError], [GetAbi], the boolean conversion and the five column
    accessors of a statement, and [ThrowLastError], [GetAbi] and the boolean
    conversion of a connection.  The implicit move constructor is the other
    operation that replaces the handle of an existing object: the new object
    gets what the source owned and the source is left with the sentinel, and
    no entry point of the engine is called. *)
Theorem members_keep_handle_move_replaces A (s : Statement) (c : Connection)
    column w :
  (receiver_after (Statement_Step s w) = s /\
   receiver_after (Statement_Execute s w) = s /\
   receiver_after (@Statement_ThrowLastError A s w) = s /\
   receiver_after (Statement_GetAbi s w) = s /\
   receiver_after (Statement_bool s w) = s) /\
  (receiver_after (Statement_GetInt column s w) = s /\
   receiver_after (Statement_GetString column s w) = s /\
   receiver_after (Statement_GetWideString column s w) = s /\
   receiver_after (Statement_GetStringLength column s w) = s /\
   receiver_after (Statement_GetWideStringLength column s w) = s) /\
  (receiver_after (@Connection_ThrowLastError A c w) = c /\
   receiver_after (Connection_GetAbi c w) = c /\
   receiver_after (Connection_bool c w) = c) /\
  (Connection_move c w = (Returned c, Connection_default, w) /\
   Statement_move s w = (Returned s, Statement_default, w) /\
   m_value (Connection_m_handle (receiver_after (Connection_move c w)))
   = Invalid_sqlite3 /\
   m_value (Statement_m_handle (receiver_after (Statement_move s w)))
   = Invalid_sqlite3_stmt).
Proof.
  split; [|split; [|split]]; repeat split.
  - apply Statement_Step_keeps_receiver.
  - unfold Statement_Execute. rewrite assert_skips. reflexivity.
  - rewrite Statement_ThrowLastError_run. reflexivity.
  - rewrite Statement_GetAbi_run. reflexivity.
  - destruct s as [[v]]. reflexivity.
  - apply Reader_accessor_keeps_receiver.
  - apply Reader_accessor_keeps_receiver.
  - apply Reader_accessor_keeps_receiver.
  - apply Reader_accessor_keeps_receiver.
  - unfold Statement_GetWideStringLength, Reader_GetWideStringLength, bind.
    rewrite Statement_GetAbi_run. unfold abi_call.
    destruct (sqlite3_column_bytes16 _ _ _ _). reflexivity.
  - rewrite Connection_ThrowLastError_run. reflexivity.
  - rewrite Connection_GetAbi_run. reflexivity.
  - destruct c as [[v]]. reflexivity.
  - destruct c as [[v]]. reflexivity.
  - destruct s as [[v]]. reflexivity.
Qed.

(** ** Further properties of the members *)

(** X1.  [Open], narrow and wide, on any connection, open or not: when the native
    open reports success the connection owns the handle the engine gave,
    whatever it owned before, and the only ABI call made is that open; when
    it reports anything else the connection is what it was and the exception
    holds the code and message read from the handle the engine gave, in the
    engine's state after the open. *)
Theorem Connection_Open_outcome filename wfilename this w :
  (let r := sqlite3_open abi filename (native w) in
   let w1 := logged_call (call_open filename) (snd r) w in
   (fst (fst r) = SQLITE_OK ->
    Connection_Open filename this w
    = (Returned tt, {| Connection_m_handle := Handle_own (snd (fst r)) |}, w1)) /\
   (fst (fst r) <> SQLITE_OK ->
    Connection_Open filename this w
    = (Thrown (last_error (snd (fst r)) (snd r)), this,
       after_error (snd (fst r)) w1))) /\
  (let r := sqlite3_open16 abi wfilename (native w) in
   let w1 := logged_call (call_open16 wfilename) (snd r) w in
   (fst (fst r) = SQLITE_OK ->
    Connection_Open_wide wfilename this w
    = (Returned tt, {| Connection_m_handle := Handle_own (snd (fst r)) |}, w1)) /\
   (fst (fst r) <> SQLITE_OK ->
    Connection_Open_wide wfilename this w
    = (Thrown (last_error (snd (fst r)) (snd r)), this,
       after_error (snd (fst r)) w1))).
Proof.
  unfold Connection_Open, Connection_Open_wide.
  rewrite !Connection_InternalOpen_run. unfold logged_call.
  destruct (sqlite3_open abi filename (native w)) as [[rc db] n].
  destruct (sqlite3_open16 abi wfilename (native w)) as [[rc' db'] n'].
  simpl. split; (split; intros E).
  - rewrite E. reflexivity.
  - rewrite (proj2 (Z.eqb_neq SQLITE_OK rc)); [reflexivity | congruence].
  - rewrite E. reflexivity.
  - rewrite (proj2 (Z.eqb_neq SQLITE_OK rc')); [reflexivity | congruence].
Qed.

(** X2.  The constructor from a filename, narrow and wide, does what [Open] does
    on a default-constructed connection: it returns the connection [Open]
    leaves or throws what [Open] throws, and the world is the same. *)
Theorem Connection_ctor_as_Open S filename wfilename (this : S) w :
  (let r := Connection_Open filename Connection_default w in
   Connection_ctor filename this w
   = (match outcome_of r with
      | Returned _ => Returned (receiver_after r)
      | Thrown e => Thrown e
      end, this, world_after r)) /\
  (let r := Connection_Open_wide wfilename Connection_default w in
   Connection_ctor_wide wfilename this w
   = (match outcome_of r with
      | Returned _ => Returned (receiver_after r)
      | Thrown e => Thrown e
      end, this, world_after r)).
Proof.
  rewrite Connection_ctor_run, Connection_ctor_wide_run.
  unfold Connection_Open, Connection_Open_wide.
  rewrite !Connection_InternalOpen_run. unfold logged_call.
  destruct (sqlite3_open abi filename (native w)) as [[rc db] n].
  destruct (sqlite3_open16 abi wfilename (native w)) as [[rc' db'] n'].
  destruct (SQLITE_OK =? rc), (SQLITE_OK =? rc'); split; reflexivity.
Qed.

(** X3.  [Prepare], narrow and wide: the native prepare is called with the
    connection's handle and length [-1], and afterwards the statement owns
    what the engine wrote to the slot, on success and on failure alike and
    whatever it owned before; on failure the exception holds the code and
    message of the connection passed in, read after the prepare. *)
Theorem Statement_Prepare_outcome connection text wtext s w :
  let db := m_value (Connection_m_handle connection) in
  (let r := sqlite3_prepare_v2 abi db text (-1) (native w) in
   let w1 := logged_call (call_prepare_v2 db text) (snd r) w in
   let s1 := {| Statement_m_handle := Handle_own (snd (fst r)) |} in
   receiver_after (Statement_Prepare connection text s w) = s1 /\
   (fst (fst r) = SQLITE_OK ->
    Statement_Prepare connection text s w = (Returned tt, s1, w1)) /\
   (fst (fst r) <> SQLITE_OK ->
    Statement_Prepare connection text s w
    = (Thrown (last_error db (snd r)), s1, after_error db w1))) /\
  (let r := sqlite3_prepare16_v2 abi db wtext (-1) (native w) in
   let w1 := logged_call (call_prepare16_v2 db wtext) (snd r) w in
   let s1 := {| Statement_m_handle := Handle_own (snd (fst r)) |} in
   receiver_after (Statement_Prepare_wide connection wtext s w) = s1 /\
   (fst (fst r) = SQLITE_OK ->
    Statement_Prepare_wide connection wtext s w = (Returned tt, s1, w1)) /\
   (fst (fst r) <> SQLITE_OK ->
    Statement_Prepare_wide connection wtext s w
    = (Thrown (last_error db (snd r)), s1, after_error db w1))).
Proof.
  intros db. unfold Statement_Prepare, Statement_Prepare_wide.
  rewrite !Statement_InternalPrepare_run. fold db.
  destruct (sqlite3_prepare_v2 abi db text (-1) (native w)) as [[rc q] n].
  destruct (sqlite3_prepare16_v2 abi db wtext (-1) (native w)) as [[rc' q'] n'].
  simpl. split; (split; [|split]).
  - destruct (SQLITE_OK =? rc); reflexivity.
  - intros E. rewrite E. reflexivity.
  - intros E.
    rewrite (proj2 (Z.eqb_neq SQLITE_OK rc)); [reflexivity | congruence].
  - destruct (SQLITE_OK =? rc'); reflexivity.
  - intros E. rewrite E. reflexivity.
  - intros E.
    rewrite (proj2 (Z.eqb_neq SQLITE_OK rc')); [reflexivity | congruence].
Qed.

(** X5.  [Step] returns true only when the native step reported a row, false
    only when it reported completion, and throws only on another code; in
    every case it makes exactly one native step. *)
Theorem Statement_Step_only_if s w :
  let rc := fst (sqlite3_step abi (m_value (Statement_m_handle s)) (native w)) in
  let r := Statement_Step s w in
  (outcome_of r = Returned true -> rc = SQLITE_ROW) /\
  (outcome_of r = Returned false -> rc = SQLITE_DONE) /\
  (forall e, outcome_of r = Thrown e -> rc <> SQLITE_ROW /\ rc <> SQLITE_DONE) /\
  count is_step (trace (world_after r)) = S (count is_step (trace w)).
Proof.
  intros rc r. subst r. rewrite Statement_Step_run. fold rc.
  destruct (Z.eqb_spec rc SQLITE_ROW) as [ER|NR].
  { repeat split; try discriminate; auto. }
  destruct (Z.eqb_spec rc SQLITE_DONE) as [ED|ND].
  { repeat split; try discriminate; auto. }
  rewrite Statement_ThrowLastError_run.
  repeat split; try discriminate; auto.
Qed.

(** X6.  Prepare, step, read: when the native prepare succeeds with statement
    [q], the step is made on [q], and when it reports a row the column is read
    from [q] in the engine's state after the step: [GetInt] and [GetString]
    give what the engine's column functions give there.  When the step
    reports completion no column is read. *)
Theorem prepare_step_read_row c text column s w :
  let db := m_value (Connection_m_handle c) in
  let p := sqlite3_prepare_v2 abi db text (-1) (native w) in
  let q := snd (fst p) in
  let st := sqlite3_step abi q (snd p) in
  let s1 := {| Statement_m_handle := Handle_own q |} in
  let w2 := logged_call (call_step q) (snd st)
              (logged_call (call_prepare_v2 db text) (snd p) w) in
  fst (fst p) = SQLITE_OK ->
  (fst st = SQLITE_ROW ->
   (let v := sqlite3_column_int abi q column (snd st) in
    prepare_step_read (Statement_GetInt column) c text s w
    = (Returned (Some (fst v)), s1,
       logged_call (call_column_int q column) (snd v) w2)) /\
   (let v := sqlite3_column_text abi q column (snd st) in
    prepare_step_read (Statement_GetString column) c text s w
    = (Returned (Some (fst v)), s1,
       logged_call (call_column_text q column) (snd v) w2))) /\
  (fst st = SQLITE_DONE ->
   prepare_step_read (Statement_GetInt column) c text s w
   = (Returned None, s1, w2)).
Proof.
  intros db p q st s1 w2 OK.
  assert (P : Statement_Prepare c text s w
              = (Returned tt, s1,
                 logged_call (call_prepare_v2 db text) (snd p) w)).
  { unfold Statement_Prepare. rewrite Statement_InternalPrepare_run.
    fold db p. destruct p as [[rc q'] n]. simpl in *.
    subst q. rewrite OK. reflexivity. }
  assert (R : forall b, fst st = (if b : bool then SQLITE_ROW else SQLITE_DONE) ->
              Statement_Step s1
                (logged_call (call_prepare_v2 db text) (snd p) w)
              = (Returned b, s1, w2)).
  { intros b E. rewrite Statement_Step_run. simpl. fold q st.
    rewrite E. destruct b; reflexivity. }
  split.
  - intros E. specialize (R true E).
    unfold prepare_step_read, bind. rewrite P, R. simpl.
    unfold Statement_GetInt, Reader_GetInt, Statement_GetString,
      Reader_GetString, bind.
    rewrite Statement_GetAbi_run. unfold abi_call, logged_call. simpl.
    destruct (sqlite3_column_int abi q column (snd st)).
    destruct (sqlite3_column_text abi q column (snd st)).
    split; reflexivity.
  - intros E. specialize (R false E).
    unfold prepare_step_read, bind. rewrite P, R. reflexivity.
Qed.

Lemma only_adds_here S A p (o : Outcome A) (this : S) w :
  only_adds p (o, this, w) w.
Proof. exists []. split; reflexivity. Qed.

Lemma only_adds_chain S A S' A' p (r : Outcome A * S * World)
    (r' : Outcome A' * S' * World) w :
  only_adds p r w -> only_adds p r' (world_after r) -> only_adds p r' w.
Proof.
  intros (a & Ea & Pa) (b & Eb & Pb). exists (b ++ a). split.
  - rewrite Eb, Ea. apply app_assoc.
  - rewrite forallb_app, Pa, Pb. reflexivity.
Qed.

Lemma only_adds_same_world S A S' A' p (r : Outcome A * S * World)
    (r' : Outcome A' * S' * World) w :
  world_after r' = world_after r -> only_adds p r w -> only_adds p r' w.
Proof. intros E (a & Ea & Pa). exists a. rewrite E. auto. Qed.

Lemma InternalOpen_no_release C logged open (filename : C) this w :
  no_release (logged filename) = true ->
  only_adds no_release (Connection_InternalOpen logged open filename this w) w.
Proof.
  intros L. rewrite Connection_InternalOpen_run.
  destruct (open filename (native w)) as [[rc db] n].
  destruct (SQLITE_OK =? rc).
  - exists [logged filename]. simpl. rewrite L. auto.
  - exists [call_errmsg db; call_extended_errcode db; logged filename].
    simpl. rewrite L. auto.
Qed.

Lemma InternalPrepare_no_release C connection logged prepare (text : C) s w :
  (forall db, no_release (logged db text) = true) ->
  only_adds no_release
    (Statement_InternalPrepare connection logged prepare text s w) w.
Proof.
  intros L. rewrite Statement_InternalPrepare_run.
  set (db := m_value (Connection_m_handle connection)).
  destruct (prepare db text (-1) (native w)) as [[rc q] n].
  destruct (SQLITE_OK =? rc).
  - exists [logged db text]. simpl. rewrite L. auto.
  - exists [call_errmsg db; call_extended_errcode db; logged db text].
    simpl. rewrite L. auto.
Qed.

Lemma Step_no_release s w : only_adds no_release (Statement_Step s w) w.
Proof.
  rewrite Statement_Step_run.
  set (stmt := m_value (Statement_m_handle s)).
  destruct (_ =? SQLITE_ROW);
    [exists [call_step stmt]; split; reflexivity|].
  destruct (_ =? SQLITE_DONE);
    [exists [call_step stmt]; split; reflexivity|].
  rewrite Statement_ThrowLastError_run. fold stmt.
  set (n := snd (sqlite3_step abi stmt (native w))).
  exists [call_errmsg (sqlite3_db_handle abi stmt n);
          call_extended_errcode (sqlite3_db_handle abi stmt n);
          call_db_handle stmt; call_step stmt].
  split; reflexivity.
Qed.

Lemma accessor_no_release A (c : sqlite3_stmt_ptr -> Call)
    (f : sqlite3_stmt_ptr -> engine abi -> A * engine abi) s w :
  (forall stmt, no_release (c stmt) = true) ->
  only_adds no_release
    ((stmt <- Statement_GetAbi ;; abi_call (c stmt) (f stmt)) s w) w.
Proof.
  intros L. unfold bind. rewrite Statement_GetAbi_run. unfold abi_call.
  destruct (f _ (native w)).
  exists [c (m_value (Statement_m_handle s))]. simpl. rewrite L. auto.
Qed.

Lemma on_first_world S L A (m : M S A) (sl : S * L) w :
  world_after (on_first m sl w) = world_after (m (fst sl) w).
Proof.
  unfold on_first. destruct (m (fst sl) w) as [[r s'] w']. reflexivity.
Qed.

Lemma on_local_world S L A (m : M L A) (sl : S * L) w :
  world_after (on_local m sl w) = world_after (m (snd sl) w).
Proof.
  unfold on_local. destruct (m (snd sl) w) as [[r s'] w']. reflexivity.
Qed.

Lemma discard_world S A (m : M S A) (this : S) w :
  world_after (discard m this w) = world_after (m this w).
Proof.
  unfold discard, bind. destruct (m this w) as [[[a|e] s'] w']; reflexivity.
Qed.

Lemma call_member_no_release m cs w :
  only_adds no_release (call_member m cs w) w.
Proof.
  destruct m; simpl.
  - eapply only_adds_same_world; [apply on_first_world|].
    apply InternalOpen_no_release. reflexivity.
  - eapply only_adds_same_world; [apply on_first_world|].
    apply InternalOpen_no_release. reflexivity.
  - unfold bind, get.
    eapply only_adds_same_world; [apply on_local_world|].
    apply InternalPrepare_no_release. reflexivity.
  - unfold bind, get.
    eapply only_adds_same_world; [apply on_local_world|].
    apply InternalPrepare_no_release. reflexivity.
  - eapply only_adds_same_world;
      [rewrite on_local_world; apply discard_world|].
    apply Step_no_release.
  - eapply only_adds_same_world; [apply on_local_world|].
    unfold Statement_Execute. rewrite assert_skips. apply only_adds_here.
  - eapply only_adds_same_world;
      [rewrite on_local_world; apply discard_world|].
    apply accessor_no_release. reflexivity.
  - eapply only_adds_same_world;
      [rewrite on_local_world; apply discard_world|].
    apply accessor_no_release. reflexivity.
  - eapply only_adds_same_world;
      [rewrite on_local_world; apply discard_world|].
    apply accessor_no_release. reflexivity.
  - eapply only_adds_same_world;
      [rewrite on_local_world; apply discard_world|].
    apply accessor_no_release. reflexivity.
  - eapply only_adds_same_world;
      [rewrite on_local_world; apply discard_world|].
    unfold Statement_GetWideStringLength, Reader_GetWideStringLength, bind.
    rewrite Statement_GetAbi_run. unfold abi_call.
    destruct (sqlite3_column_bytes16 _ _ _ _).
    exists [call_column_bytes16 (m_value (Statement_m_handle (snd cs))) column].
    auto.
Qed.

Lemma call_members_no_release l cs w :
  only_adds no_release (call_members l cs w) w.
Proof.
  revert cs w. induction l as [|m rest IH]; intros cs w; simpl.
  - apply only_adds_here.
  - unfold bind.
    pose proof (call_member_no_release m cs w) as H.
    destruct (call_member m cs w) as [[[[]|e] cs'] w'].
    + eapply only_adds_chain; [exact H | apply IH].
    + exact H.
Qed.

Lemma count_only_adds_no_release S A (r : Outcome A * S * World) w :
  only_adds no_release r w ->
  count is_release (trace (world_after r)) = count is_release (trace w).
Proof.
  intros (added & E & P). rewrite E. unfold count.
  rewrite filter_app, length_app.
  replace (filter is_release added) with (@nil Call); [reflexivity|].
  clear E. induction added as [|c rest IH]; [reflexivity|].
  simpl in *. apply andb_prop in P as [Pc Pr].
  unfold no_release in Pc. apply negb_true_iff in Pc. rewrite Pc. auto.
Qed.

(** X7.  Whatever members are called, in whatever order, on a connection and a
    statement of a block, and whether the block is left by return or by
    exception, the engine sees no [sqlite3_close] and no [sqlite3_finalize]:
    the log only grows, and by calls that release nothing. *)
Theorem block_of_calls_never_releases l w :
  (exists added,
     trace (snd (block_of_calls l w)) = added ++ trace w /\
     forallb no_release added = true) /\
  count is_release (trace (snd (block_of_calls l w)))
  = count is_release (trace w).
Proof.
  pose proof (call_members_no_release l (Connection_default, Statement_default) w)
    as H.
  assert (E : snd (block_of_calls l w)
              = world_after (call_members l (Connection_default, Statement_default) w)).
  { unfold block_of_calls.
    destruct (call_members l _ w) as [[r cs] w1].
    rewrite Statement_dtor_run, Connection_dtor_run. reflexivity. }
  rewrite E. split.
  - exact H.
  - apply count_only_adds_no_release. exact H.
Qed.

Lemma on_local_keeps_first S L A (m : M L A) (sl : S * L) w :
  fst (receiver_after (on_local m sl w)) = fst sl.
Proof.
  unfold on_local. destruct (m (snd sl) w) as [[r l'] w']. reflexivity.
Qed.

Lemma on_first_keeps_local S L A (m : M S A) (sl : S * L) w :
  snd (receiver_after (on_first m sl w)) = snd sl.
Proof.
  unfold on_first. destruct (m (fst sl) w) as [[r s'] w']. reflexivity.
Qed.

Lemma on_local_receiver S L A (m : M L A) (sl : S * L) w :
  snd (receiver_after (on_local m sl w)) = receiver_after (m (snd sl) w).
Proof.
  unfold on_local. destruct (m (snd sl) w) as [[r l'] w']. reflexivity.
Qed.

Lemma discard_receiver S A (m : M S A) (this : S) w :
  receiver_after (discard m this w) = receiver_after (m this w).
Proof.
  unfold discard, bind. destruct (m this w) as [[[a|e] s'] w']; reflexivity.
Qed.

Lemma call_member_keeps_connection m cs w :
  is_Open m = false -> fst (receiver_after (call_member m cs w)) = fst cs.
Proof.
  destruct m; simpl; try discriminate; intros _;
    try apply on_local_keeps_first;
    unfold bind, get; apply on_local_keeps_first.
Qed.

Lemma call_member_keeps_statement m cs w :
  is_Prepare m = false -> snd (receiver_after (call_member m cs w)) = snd cs.
Proof.
  destruct m; simpl; try discriminate; intros _;
    try apply on_first_keeps_local;
    rewrite on_local_receiver; try rewrite discard_receiver.
  - apply Statement_Step_keeps_receiver.
  - unfold Statement_Execute. rewrite assert_skips. reflexivity.
  - apply Reader_accessor_keeps_receiver.
  - apply Reader_accessor_keeps_receiver.
  - apply Reader_accessor_keeps_receiver.
  - apply Reader_accessor_keeps_receiver.
  - unfold Statement_GetWideStringLength, Reader_GetWideStringLength, bind.
    rewrite Statement_GetAbi_run. unfold abi_call.
    destruct (sqlite3_column_bytes16 _ _ _ _). reflexivity.
Qed.

(** X8.  A sequence of member calls without [Open] leaves the connection as it
    was, and one without [Prepare] leaves the statement as it was, whether
    the sequence runs to its end or is cut short by an exception. *)
Theorem call_members_frame l c s w :
  (forallb (fun m => negb (is_Open m)) l = true ->
   fst (receiver_after (call_members l (c, s) w)) = c) /\
  (forallb (fun m => negb (is_Prepare m)) l = true ->
   snd (receiver_after (call_members l (c, s) w)) = s).
Proof.
  revert c s w. induction l as [|m rest IH]; intros c s w.
  - split; reflexivity.
  - simpl. unfold bind. split; intros H; apply andb_prop in H as [Hm Hr];
      apply negb_true_iff in Hm.
    + pose proof (call_member_keeps_connection m (c, s) w Hm) as K.
      destruct (call_member m (c, s) w) as [[[[]|e] [c' s']] w'];
        simpl in K; subst c'; [|reflexivity].
      apply IH. exact Hr.
    + pose proof (call_member_keeps_statement m (c, s) w Hm) as K.
      destruct (call_member m (c, s) w) as [[[[]|e] [c' s']] w'];
        simpl in K; subst s'; [|reflexivity].
      apply IH. exact Hr.
Qed.

Lemma call_member_step_count m cs w :
  count is_step (trace (world_after (call_member m cs w)))
  = ((if is_member_Step m then 1 else 0) + count is_step (trace w))%nat.
Proof.
  destruct m; simpl.
  - rewrite on_first_world. unfold Connection_Open.
    rewrite Connection_InternalOpen_run.
    destruct (sqlite3_open abi filename (native w)) as [[rc db] n].
    destruct (SQLITE_OK =? rc); reflexivity.
  - rewrite on_first_world. unfold Connection_Open_wide.
    rewrite Connection_InternalOpen_run.
    destruct (sqlite3_open16 abi filename (native w)) as [[rc db] n].
    destruct (SQLITE_OK =? rc); reflexivity.
  - unfold bind, get. rewrite on_local_world. unfold Statement_Prepare.
    rewrite Statement_InternalPrepare_run.
    destruct (sqlite3_prepare_v2 abi _ text (-1) (native w)) as [[rc q] n].
    destruct (SQLITE_OK =? rc); reflexivity.
  - unfold bind, get. rewrite on_local_world. unfold Statement_Prepare_wide.
    rewrite Statement_InternalPrepare_run.
    destruct (sqlite3_prepare16_v2 abi _ text (-1) (native w)) as [[rc q] n].
    destruct (SQLITE_OK =? rc); reflexivity.
  - rewrite on_local_world, discard_world, Statement_Step_run.
    destruct (_ =? SQLITE_ROW); [reflexivity|].
    destruct (_ =? SQLITE_DONE); [reflexivity|].
    rewrite Statement_ThrowLastError_run. reflexivity.
  - rewrite on_local_world. unfold Statement_Execute.
    rewrite assert_skips. reflexivity.
  - rewrite on_local_world, discard_world.
    unfold Statement_GetInt, Reader_GetInt, bind.
    rewrite Statement_GetAbi_run. unfold abi_call.
    destruct (sqlite3_column_int _ _ _ _). reflexivity.
  - rewrite on_local_world, discard_world.
    unfold Statement_GetString, Reader_GetString, bind.
    rewrite Statement_GetAbi_run. unfold abi_call.
    destruct (sqlite3_column_text _ _ _ _). reflexivity.
  - rewrite on_local_world, discard_world.
    unfold Statement_GetWideString, Reader_GetWideString, bind.
    rewrite Statement_GetAbi_run. unfold abi_call.
    destruct (sqlite3_column_text16 _ _ _ _). reflexivity.
  - rewrite on_local_world, discard_world.
    unfold Statement_GetStringLength, Reader_GetStringLength, bind.
    rewrite Statement_GetAbi_run. unfold abi_call.
    destruct (sqlite3_column_bytes _ _ _ _). reflexivity.
  - rewrite on_local_world, discard_world.
    unfold Statement_GetWideStringLength, Reader_GetWideStringLength, bind.
    rewrite Statement_GetAbi_run. unfold abi_call.
    destruct (sqlite3_column_bytes16 _ _ _ _). reflexivity.
Qed.

(** X9.  In a sequence of member calls that runs to its end the engine is
    stepped once for each [Step] of the sequence and by nothing else: not by
    [Execute], not by a column accessor, not by [Open] or [Prepare]. *)
Theorem call_members_step_count l cs w :
  outcome_of (call_members l cs w) = Returned tt ->
  count is_step (trace (world_after (call_members l cs w)))
  = (List.length (filter is_member_Step l) + count is_step (trace w))%nat.
Proof.
  revert cs w. induction l as [|m rest IH]; intros cs w; simpl.
  - reflexivity.
  - unfold bind. intros R.
    pose proof (call_member_step_count m cs w) as K.
    destruct (call_member m cs w) as [[[[]|e] cs'] w']; [|discriminate R].
    rewrite (IH cs' w' R). unfold world_after in K. simpl in K. rewrite K.
    destruct (is_member_Step m); simpl; lia.
Qed.

End Wrapper.

(** ** The wrappers on the small engine *)

Lemma Statement_Step_result_witness :
  let select := {| Statement_m_handle := {| m_value := 2 |} |} in
  let stray := {| Statement_m_handle := {| m_value := 9 |} |} in
  (fst (Toy.step 2 (Toy.prepared "SELECT 42")) = SQLITE_ROW /\
   outcome_of (Statement_Step (abi:=Toy.abi) select
                 (fresh_world Toy.abi (Toy.prepared "SELECT 42")))
   = Returned true) /\
  (fst (Toy.step 2 (Toy.prepared "CREATE TABLE t(x INTEGER)")) = SQLITE_DONE /\
   outcome_of (Statement_Step (abi:=Toy.abi) select
                 (fresh_world Toy.abi (Toy.prepared "CREATE TABLE t(x INTEGER)")))
   = Returned false) /\
  (fst (Toy.step 9 Toy.opened) = 21 /\
   outcome_of (Statement_Step (abi:=Toy.abi) stray (fresh_world Toy.abi Toy.opened))
   = Thrown {| Result := 7; Message := "out of memory" |}).
Proof.
  intros select stray.
  split; [|split]; (split; [reflexivity|]).
  - rewrite (proj1 (Statement_Step_result select
                      (fresh_world Toy.abi (Toy.prepared "SELECT 42"))));
      reflexivity.
  - rewrite (proj1 (proj2 (Statement_Step_result select
               (fresh_world Toy.abi (Toy.prepared "CREATE TABLE t(x INTEGER)")))));
      reflexivity.
  - rewrite (proj2 (proj2 (Statement_Step_result stray
               (fresh_world Toy.abi Toy.opened))));
      [reflexivity | discriminate | discriminate].
Defined.

Lemma Reader_lengths_witness :
  let select := {| Statement_m_handle := {| m_value := 2 |} |} in
  let w := fresh_world Toy.abi (Toy.stepped "SELECT 42") in
  0 <= fst (Toy.column_bytes16 2 0 (Toy.stepped "SELECT 42")) <= INT_MAX /\
  outcome_of (Statement_GetStringLength 0 select w) = Returned 2 /\
  outcome_of (Statement_GetWideStringLength LP64 0 select w) = Returned 1 /\
  outcome_of (Statement_GetWideStringLength LLP64 0 select w) = Returned 2.
Proof.
  intros select w.
  assert (H : 0 <= fst (Toy.column_bytes16 2 0 (Toy.stepped "SELECT 42"))
              <= INT_MAX) by (vm_compute; split; discriminate).
  split; [exact H|]. split; [|split].
  - exact (proj1 (Reader_lengths LP64 select 0 w)).
  - exact (proj2 (Reader_lengths LP64 select 0 w) H).
  - exact (proj2 (Reader_lengths LLP64 select 0 w) H).
Defined.

(** C1, on the code: the release action is not invoked exactly once but
    never.  Destroying a connection or a statement leaves the world as it
    was whatever handle is owned, because the call of [sqlite3_close] and of
    [sqlite3_finalize] is the argument of [assert], which both definitions of
    the macro drop.  In the block that opens the in-memory database, moves
    the connection and prepares a statement, connection 1 and statement 2 are
    owned when the block is left, the log holds no close and no finalize, and
    the engine still holds both. *)
Theorem release_action_never_invoked :
  (forall abi build inv c w,
     @Connection_dtor abi build inv c w
     = (Returned tt, Connection_default abi build inv, w)) /\
  (forall abi build inv s w,
     @Statement_dtor abi build inv s w
     = (Returned tt, Statement_default abi build inv, w)) /\
  (forall build,
     let r := block_open_move_prepare (abi:=Toy.abi) build 0 0 "SELECT 42" tt
                (fresh_world Toy.abi Toy.init) in
     outcome_of r = Returned tt /\
     trace (world_after r)
     = [call_prepare_v2 1 "SELECT 42"; call_open ":memory:"] /\
     count (is_close 1) (trace (world_after r)) = 0%nat /\
     count (is_finalize 2) (trace (world_after r)) = 0%nat /\
     Toy.find_db 1 (native (world_after r)) <> None /\
     Toy.find_stmt 2 (native (world_after r)) <> None).
Proof.
  split; [|split].
  - intros. apply Connection_dtor_run.
  - intros. apply Statement_dtor_run.
  - intros []; vm_compute; repeat split; discriminate.
Qed.

(** C2, on the code: [Execute] calls [Step] not once but never.  It returns
    normally and leaves the statement and the world as they were, for every
    statement, because [!Step()] is the argument of [assert].  On a statement
    prepared from a query with one row, the [Step] that follows [Execute] is
    the only native step in the log and it is the one that reports the row. *)
Theorem Execute_never_steps :
  (forall abi build s w,
     @Statement_Execute abi build s w = (Returned tt, s, w)) /\
  (forall build,
     let r := block_execute_then_step (abi:=Toy.abi) build 0 0 "SELECT 42" tt
                (fresh_world Toy.abi Toy.init) in
     outcome_of r = Returned true /\
     trace (world_after r)
     = [call_step 2; call_prepare_v2 1 "SELECT 42"; call_open ":memory:"] /\
     count is_step (trace (world_after r)) = 1%nat).
Proof.
  split.
  - intros. unfold Statement_Execute. apply assert_skips.
  - intros []; vm_compute; repeat split.
Qed.

(** C3, on the code: a failed [Open] throws the exception read from the
    temporary's handle and leaves the connection as it was, but the
    temporary's handle is not released.  Opening a path that cannot be opened
    on a default-constructed connection throws code 14 with its message, the
    connection is still empty, and the handle the engine gave (1) is never
    closed: the log holds no close and the engine still holds it. *)
Theorem failed_Open_leaks_handle :
  forall build,
    let r := block_open (abi:=Toy.abi) build 0 "/no/such/dir/x.db"
               (fresh_world Toy.abi Toy.init) in
    outcome_of r
    = Thrown {| Result := 14; Message := "unable to open database file" |} /\
    receiver_after r = Connection_default Toy.abi build 0 /\
    trace (world_after r)
    = [call_errmsg 1; call_extended_errcode 1; call_open "/no/such/dir/x.db"] /\
    count (is_close 1) (trace (world_after r)) = 0%nat /\
    Toy.find_db 1 (native (world_after r))
    = Some {| Toy.db_ptr := 1; Toy.db_errcode := 14;
              Toy.db_errmsg := "unable to open database file" |}.
Proof. intros []; vm_compute; repeat split. Qed.

(** C5, on the code: [Prepare] does not check that the connection is open.
    With a default-constructed connection, which converts to false, it calls
    the native prepare on the sentinel and then throws what the engine
    reports for the sentinel; [assert(connection)] stops nothing, with
    [NDEBUG] or without. *)
Theorem Prepare_does_not_check_connection :
  forall build,
    let closed := Connection_default Toy.abi build 0 in
    let w := fresh_world Toy.abi Toy.init in
    let r := block_prepare_closed (abi:=Toy.abi) build 0 0 "SELECT 42" w in
    outcome_of (Connection_bool build 0 closed w) = Returned false /\
    outcome_of r = Thrown {| Result := 7; Message := "out of memory" |} /\
    trace (world_after r)
    = [call_errmsg 0; call_extended_errcode 0; call_prepare_v2 0 "SELECT 42"].
Proof. intros []; vm_compute; repeat split. Qed.

(** ** The further properties on the small engine *)

Lemma Connection_Open_outcome_witness :
  let c := {| Connection_m_handle := {| m_value := 7 |} |} in
  let w := fresh_world Toy.abi Toy.init in
  (fst (fst (Toy.open ":memory:" Toy.init)) = SQLITE_OK /\
   receiver_after (Connection_Open NDEBUG_defined 0 ":memory:" c w)
   = {| Connection_m_handle := {| m_value := 1 |} |}) /\
  (fst (fst (Toy.open "/no/such/dir/x.db" Toy.init)) <> SQLITE_OK /\
   Connection_Open NDEBUG_defined 0 "/no/such/dir/x.db" c w
   = (Thrown {| Result := 14; Message := "unable to open database file" |}, c,
      after_error 1
        (logged_call (abi:=Toy.abi) (call_open "/no/such/dir/x.db")
           (snd (Toy.open "/no/such/dir/x.db" Toy.init)) w))) /\
  (fst (fst (Toy.open (Toy.narrow (Toy.wide ":memory:")) Toy.init)) = SQLITE_OK /\
   receiver_after (Connection_Open_wide NDEBUG_defined 0 (Toy.wide ":memory:") c w)
   = {| Connection_m_handle := {| m_value := 1 |} |}) /\
  (fst (fst (Toy.open (Toy.narrow (Toy.wide "x.db")) Toy.init)) <> SQLITE_OK /\
   receiver_after (Connection_Open_wide NDEBUG_defined 0 (Toy.wide "x.db") c w)
   = c).
Proof.
  intros c w.
  pose proof (Connection_Open_outcome NDEBUG_defined 0 ":memory:"
                (Toy.wide ":memory:") c w) as [[N _] [W _]].
  pose proof (Connection_Open_outcome NDEBUG_defined 0 "/no/such/dir/x.db"
                (Toy.wide "x.db") c w) as [[_ N'] [_ W']].
  split; [|split; [|split]].
  - split; [reflexivity|]. rewrite (N eq_refl). reflexivity.
  - split; [discriminate|]. rewrite N' by discriminate. reflexivity.
  - split; [reflexivity|]. rewrite (W eq_refl). reflexivity.
  - split; [discriminate|]. rewrite W' by discriminate. reflexivity.
Defined.

Lemma Statement_Prepare_outcome_witness :
  let c := {| Connection_m_handle := {| m_value := 1 |} |} in
  let s := {| Statement_m_handle := {| m_value := 5 |} |} in
  let w := fresh_world Toy.abi Toy.opened in
  (fst (fst (Toy.prepare 1 "SELECT 42" (-1) Toy.opened)) = SQLITE_OK /\
   receiver_after (Statement_Prepare NDEBUG_defined 0 0 c "SELECT 42" s w)
   = {| Statement_m_handle := {| m_value := 2 |} |}) /\
  (fst (fst (Toy.prepare 1 "SELEKT" (-1) Toy.opened)) <> SQLITE_OK /\
   Statement_Prepare NDEBUG_defined 0 0 c "SELEKT" s w
   = (Thrown {| Result := 1; Message := "syntax error" |},
      {| Statement_m_handle := {| m_value := 0 |} |},
      after_error 1
        (logged_call (abi:=Toy.abi) (call_prepare_v2 1 "SELEKT")
           (snd (Toy.prepare 1 "SELEKT" (-1) Toy.opened)) w))) /\
  (fst (fst (Toy.prepare 1 (Toy.narrow (Toy.wide "SELECT 42")) (-1) Toy.opened))
   = SQLITE_OK /\
   receiver_after
     (Statement_Prepare_wide NDEBUG_defined 0 0 c (Toy.wide "SELECT 42") s w)
   = {| Statement_m_handle := {| m_value := 2 |} |}) /\
  (fst (fst (Toy.prepare 1 (Toy.narrow (Toy.wide "SELEKT")) (-1) Toy.opened))
   <> SQLITE_OK /\
   outcome_of
     (Statement_Prepare_wide NDEBUG_defined 0 0 c (Toy.wide "SELEKT") s w)
   = Thrown {| Result := 1; Message := "syntax error" |}).
Proof.
  intros c s w.
  pose proof (Statement_Prepare_outcome NDEBUG_defined 0 0 c "SELECT 42"
                (Toy.wide "SELECT 42") s w) as [(_ & N & _) (_ & W & _)].
  pose proof (Statement_Prepare_outcome NDEBUG_defined 0 0 c "SELEKT"
                (Toy.wide "SELEKT") s w) as [(_ & _ & N') (_ & _ & W')].
  split; [|split; [|split]].
  - split; [reflexivity|]. rewrite (N eq_refl). reflexivity.
  - split; [discriminate|]. rewrite N' by discriminate. reflexivity.
  - split; [reflexivity|]. rewrite (W eq_refl). reflexivity.
  - split; [discriminate|]. rewrite W' by discriminate. reflexivity.
Defined.

Lemma Statement_Step_only_if_witness :
  let select := {| Statement_m_handle := {| m_value := 2 |} |} in
  let stray := {| Statement_m_handle := {| m_value := 9 |} |} in
  (outcome_of (Statement_Step (abi:=Toy.abi) select
                 (fresh_world Toy.abi (Toy.prepared "SELECT 42")))
   = Returned true /\
   fst (Toy.step 2 (Toy.prepared "SELECT 42")) = SQLITE_ROW) /\
  (outcome_of (Statement_Step (abi:=Toy.abi) select
                 (fresh_world Toy.abi (Toy.stepped "SELECT 42")))
   = Returned false /\
   fst (Toy.step 2 (Toy.stepped "SELECT 42")) = SQLITE_DONE) /\
  (outcome_of (Statement_Step (abi:=Toy.abi) stray
                 (fresh_world Toy.abi Toy.opened))
   = Thrown {| Result := 7; Message := "out of memory" |} /\
   fst (Toy.step 9 Toy.opened) <> SQLITE_ROW /\
   fst (Toy.step 9 Toy.opened) <> SQLITE_DONE).
Proof.
  intros select stray.
  split; [|split]; (split; [reflexivity|]).
  - exact (proj1 (Statement_Step_only_if select
                    (fresh_world Toy.abi (Toy.prepared "SELECT 42"))) eq_refl).
  - exact (proj1 (proj2 (Statement_Step_only_if select
                    (fresh_world Toy.abi (Toy.stepped "SELECT 42")))) eq_refl).
  - exact (proj1 (proj2 (proj2 (Statement_Step_only_if stray
                    (fresh_world Toy.abi Toy.opened)))) _ eq_refl).
Defined.

Lemma prepare_step_read_row_witness :
  let c := {| Connection_m_handle := {| m_value := 1 |} |} in
  let s := {| Statement_m_handle := {| m_value := 0 |} |} in
  let w := fresh_world Toy.abi Toy.opened in
  fst (fst (Toy.prepare 1 "SELECT 42" (-1) Toy.opened)) = SQLITE_OK /\
  fst (Toy.step 2 (Toy.prepared "SELECT 42")) = SQLITE_ROW /\
  outcome_of (prepare_step_read NDEBUG_defined 0 0 (Statement_GetInt 0) c
                "SELECT 42" s w) = Returned (Some 42) /\
  outcome_of (prepare_step_read NDEBUG_defined 0 0 (Statement_GetString 0) c
                "SELECT 42" s w) = Returned (Some "42"%string) /\
  fst (Toy.step 2 (Toy.prepared "CREATE TABLE t(x INTEGER)")) = SQLITE_DONE /\
  outcome_of (prepare_step_read NDEBUG_defined 0 0 (Statement_GetInt 0) c
                "CREATE TABLE t(x INTEGER)" s w) = Returned None.
Proof.
  intros c s w.
  pose proof (prepare_step_read_row NDEBUG_defined 0 0 c "SELECT 42" 0 s w
                eq_refl) as [R _].
  pose proof (prepare_step_read_row NDEBUG_defined 0 0 c
                "CREATE TABLE t(x INTEGER)" 0 s w eq_refl) as [_ D].
  destruct (R eq_refl) as [RI RS].
  split; [reflexivity|]. split; [reflexivity|].
  split; [rewrite RI; reflexivity|].
  split; [rewrite RS; reflexivity|].
  split; [reflexivity|].
  rewrite (D eq_refl). reflexivity.
Defined.

Lemma call_members_frame_witness :
  let c := {| Connection_m_handle := {| m_value := 1 |} |} in
  let s := {| Statement_m_handle := {| m_value := 2 |} |} in
  let w := fresh_world Toy.abi (Toy.prepared "SELECT 42") in
  let reads := [member_Prepare "SELECT 42"; member_Step; member_GetInt 0;
                member_Execute; member_Step; member_Step] in
  let opens := [member_Step; member_Open ":memory:"; member_GetString 0] in
  forallb (fun m => negb (is_Open m)) reads = true /\
  fst (receiver_after (call_members NDEBUG_defined LP64 0 0 reads (c, s) w)) = c /\
  forallb (fun m => negb (is_Prepare m)) opens = true /\
  snd (receiver_after (call_members NDEBUG_defined LP64 0 0 opens (c, s) w)) = s.
Proof.
  intros c s w reads opens.
  split; [reflexivity|]. split; [|split; [reflexivity|]].
  - exact (proj1 (call_members_frame NDEBUG_defined LP64 0 0 reads c s w) eq_refl).
  - exact (proj2 (call_members_frame NDEBUG_defined LP64 0 0 opens c s w) eq_refl).
Defined.

Lemma call_members_step_count_witness :
  let l := [member_Open ":memory:"; member_Prepare "SELECT 42"; member_Execute;
            member_Step; member_GetInt 0; member_Step] in
  let start := (Connection_default Toy.abi NDEBUG_defined 0,
                Statement_default Toy.abi NDEBUG_defined 0) in
  let r := call_members NDEBUG_defined LP64 0 0 l start
             (fresh_world Toy.abi Toy.init) in
  outcome_of r = Returned tt /\
  count is_step (trace (world_after r)) = 2%nat.
Proof.
  intros l start r. split; [reflexivity|].
  exact (call_members_step_count NDEBUG_defined LP64 0 0 l start
           (fresh_world Toy.abi Toy.init) eq_refl).
Defined.

(** C9, on the code: [WideMemory()] does not open the in-memory database
    where [wchar_t] is wider than 16 bits.  Its one open is the wide entry
    point on the literal [L":memory:"]; that entry point reads UTF-16, and in
    the bytes of the literal with four-byte [wchar_t] the colon is followed
    by a null 16-bit unit, so the name the engine reads is [":"], a file,
    not [":memory:"].  With two-byte [wchar_t] it reads [":memory:"], and
    [Memory()] hands the narrow entry point [":memory:"] itself. *)
Theorem WideMemory_names_a_file :
  (forall (abi : sqlite3_abi) build inv (w : World abi),
     exists later,
       trace (world_after (Connection_WideMemory build inv tt w))
       = later ++ call_open16 memory_name_wide :: trace w) /\
  (forall (abi : sqlite3_abi) build inv (w : World abi),
     exists later,
       trace (world_after (Connection_Memory build inv tt w))
       = later ++ call_open ":memory:" :: trace w) /\
  memory_name_wide = [58; 109; 101; 109; 111; 114; 121; 58] /\
  utf16_seen LP64 memory_name_wide = [58] /\
  utf16_seen ILP32 memory_name_wide = [58] /\
  utf16_seen LLP64 memory_name_wide = memory_name_wide /\
  utf16_seen LP64 memory_name_wide <> memory_name_wide.
Proof.
  split; [|split; [|repeat split; discriminate]].
  - intros abi build inv w. unfold Connection_WideMemory.
    rewrite Connection_ctor_wide_run.
    destruct (sqlite3_open16 abi memory_name_wide (native w)) as [[rc db] n].
    destruct (SQLITE_OK =? rc).
    + exists []. reflexivity.
    + exists [call_errmsg db; call_extended_errcode db]. reflexivity.
  - intros abi build inv w. unfold Connection_Memory.
    rewrite Connection_ctor_run.
    destruct (sqlite3_open abi memory_name (native w)) as [[rc db] n].
    destruct (SQLITE_OK =? rc).
    + exists []. reflexivity.
    + exists [call_errmsg db; call_extended_errcode db]. reflexivity.
Qed.

(** C10, as stated, fails: moving from an open connection is neither [Open]
    nor [Prepare], and it replaces the handle the connection owned (1) by
    the sentinel (0); the new connection owns 1. *)
Lemma move_replaces_handle :
  let c := {| Connection_m_handle := {| m_value := 1 |} |} in
  let r := Connection_move (abi:=Toy.abi) NDEBUG_defined 0 c
             (fresh_world Toy.abi Toy.opened) in
  outcome_of r = Returned c /\
  m_value (Connection_m_handle (receiver_after r)) = 0 /\
  receiver_after r <> c.
Proof. repeat split. discriminate. Qed.
